(** * giu: style stack, alignment and autocomplete input, verified against the Go source

    Shallow embedding of [Style.go], [Alignment.go] and the [InputTextWidget]
    of [TextWidgets.go].  A widget's [Build] talks to Dear ImGui; here every
    build is a function from the world (ImGui's state, giu's state store and
    font registry, the application's string cells) to either a panic or a new
    world together with the list of backend calls it made, answers included. *)

From Stdlib Require Import ZArith List.
From Stdlib Require Import Floats.SpecFloat.
From stdpp Require Import gmap strings list fin_maps pretty.

Local Open Scope Z_scope.

(** ** Go's numeric types *)

(** [float32]: IEEE 754 binary32, 24 bits of precision, exponent bound 128. *)
Definition float32 : Type := spec_float.

Definition f32_add : float32 -> float32 -> float32 := SFadd 24 128.
Definition f32_sub : float32 -> float32 -> float32 := SFsub 24 128.
Definition f32_mul : float32 -> float32 -> float32 := SFmul 24 128.
Definition f32_div : float32 -> float32 -> float32 := SFdiv 24 128.
Definition f32_eqb : float32 -> float32 -> bool := SFeqb.

(** The zero value of a [float32] variable. *)
Definition f32_zero : float32 := S754_zero false.

(** [int] is taken as the 64-bit integer of the desktop platforms giu runs on. *)
Definition min_int : Z := - 2 ^ 63.
Definition max_int : Z := 2 ^ 63 - 1.

Definition int_wrap (z : Z) : Z := (z + 2 ^ 63) mod 2 ^ 64 - 2 ^ 63.

(** [a - b] on [int]. *)
Definition int_sub (a b : Z) : Z := int_wrap (a - b).

(** The conversion [float32(z)] of an integer (also of an untyped constant):
    round to nearest, ties to even. *)
Definition float32_of_int (z : Z) : float32 := binary_normalize 24 128 z 0 false.

(** The conversion [int(f)]: the fraction is discarded (truncation towards
    zero).  Go leaves the result open when the value does not fit; the value
    given here for that case, and for NaN and the infinities, is the one an
    amd64 build produces. *)
Definition int_of_float32 (f : float32) : Z :=
  match f with
  | S754_zero _ => 0
  | S754_finite s m e =>
      let mag := if 0 <=? e then Z.pos m * 2 ^ e else Z.pos m / 2 ^ (- e) in
      let v := if s then - mag else mag in
      if (min_int <=? v) && (v <=? max_int) then v else min_int
  | S754_infinity _ | S754_nan => min_int
  end.

(** ** Values of the packages giu imports *)

Module image.
(** [image.Point]. *)
Record Point : Type := Pt { X : Z; Y : Z }.
End image.

Module fuzzy.
(** [fuzzy.Match] and [fuzzy.Matches] of github.com/sahilm/fuzzy. *)
Record Match : Type := mkMatch
  { Str : string; Index : Z; MatchedIndexes : list Z; Score : Z }.
Definition Matches : Type := list Match.
End fuzzy.

Module imgui.
Record Vec2 : Type := mkVec2 { X : float32; Y : float32 }.
Record Vec4 : Type := mkVec4
  { Vec4_X : float32; Vec4_Y : float32; Vec4_Z : float32; Vec4_W : float32 }.

(** [imgui.StyleColorID], [imgui.StyleVarID]: integers.  [imgui.Font]: a handle. *)
Definition StyleColorID : Type := Z.
Definition StyleVarID : Type := Z.
Definition Font : Type := Z.

(** One constructor per backend operation the modelled code performs, with
    the arguments passed and, for operations that return something, the
    value that came back.  [GetCursorPos], [SetCursorPos],
    [GetAvailableRegion], [SetNextWindowPos] and [IsKeyPressed] stand for
    giu's thin wrappers of that name, which live outside the modelled files. *)
Inductive Call : Type :=
| PushStyleColor (id : StyleColorID) (col : Vec4)
| PushStyleVarVec2 (id : StyleVarID) (value : Vec2)
| PushStyleVarFloat (id : StyleVarID) (value : float32)
| PopStyleColorV (count : Z)
| PopStyleVarV (count : Z)
| PopStyleVar
| PushFont (f : Font)
| PopFont
| BeginDisabled (disabled : bool)
| EndDisabled
| PushItemWidth (width : float32)
| PopItemWidth
| SameLine
| CurrentStyle_WindowPadding (ret : Vec2)
| CurrentStyle_ItemSpacing (ret : Vec2)
| GetCursorPos (ret : image.Point)
| SetCursorPos (pos : image.Point)
| GetAvailableRegion (width height : float32)
| InputTextWithHint (label hint text : string) (flags : Z)
    (changed : bool) (text' : string)
| GetItemRectMin (ret : Vec2)
| GetItemRectMax (ret : Vec2)
| SetNextWindowPos (x y : float32)
| BeginTooltip
| EndTooltip
| Text (text : string)
| IsKeyPressed (key : Z) (ret : bool).
End imgui.

(** ** What the modelled files take from elsewhere

    Dear ImGui's own state and answers, the constants of imgui-go, the fuzzy
    finder, Go's map iteration order, and the helpers of giu that live in
    files other than the three modelled ones. *)
Class Externals : Type := {
  (** Dear ImGui: its state, how a completed call changes it, and what it
      answers. *)
  ImState : Type;
  im_step : imgui.Call -> ImState -> ImState;
  im_CursorPos : ImState -> image.Point;
  im_AvailableRegion : ImState -> float32 * float32;
  im_WindowPadding : ImState -> imgui.Vec2;
  im_ItemSpacing : ImState -> imgui.Vec2;
  im_ItemRectMin : ImState -> imgui.Vec2;
  im_ItemRectMax : ImState -> imgui.Vec2;
  im_IsKeyPressed : Z -> ImState -> bool;
  (** the user's edit of an input box: whether the text changed, and the
      text the box holds afterwards *)
  im_InputText : string -> string -> string -> Z -> ImState -> bool * string;
  (** imgui-go's style-variable constants used by the modelled code *)
  imgui_StyleVarAlpha : Z;
  imgui_StyleVarWindowPadding : Z;
  imgui_StyleVarWindowMinSize : Z;
  imgui_StyleVarWindowTitleAlign : Z;
  imgui_StyleVarFramePadding : Z;
  imgui_StyleVarItemSpacing : Z;
  imgui_StyleVarItemInnerSpacing : Z;
  imgui_StyleVarButtonTextAlign : Z;
  imgui_StyleVarSelectableTextAlign : Z;
  (** [color.Color] and giu's [ToVec4Color] *)
  Color : Type;
  ToVec4Color : Color -> imgui.Vec4;
  (** giu's [FontInfo] and its [String] method *)
  FontInfo : Type;
  FontInfo_String : FontInfo -> string;
  (** giu's [KeyEnter] *)
  KeyEnter : Z;
  (** giu's translation helpers [tStr] and [tStrPtr] (the latter given by the
      text it leaves in the cell) *)
  tStr : string -> string;
  tStrPtr : string -> string;
  (** [fuzzy.Find] *)
  fuzzy_Find : string -> list string -> fuzzy.Matches;
  (** Go visits the entries of a map once each, in an order of the runtime's
      choosing: the order drawn from the runtime's random state, and the next
      random state. *)
  map_range : forall V : Type, Z -> gmap Z V -> list (Z * V);
  map_range_next : Z -> Z;
  map_range_perm : forall (V : Type) (r : Z) (m : gmap Z V),
    map_range V r m ≡ₚ map_to_list m
}.

Arguments map_range {_ _} _ _.

Section Giu.
Context {E : Externals}.

(** ** giu's state and the build monad *)

(** [inputTextState], the per-identifier state of an input box. *)
Record inputTextState : Type := mk_inputTextState
  { autoCompleteCandidates : fuzzy.Matches }.

(** What the state store holds under an identifier: the state of an input
    box, or the state of some other kind of widget (named by its type). *)
Inductive StateValue : Type :=
| State_inputTextState (s : inputTextState)
| State_other (type_name : string).

(** Everything a build can read or change: Dear ImGui, giu's [Context] (the
    state store), giu's font registry [extraFontMap], the application's string
    variables by address (address 0 is the nil pointer), and the random state
    behind map iteration. *)
Record World : Type := mkWorld {
  im : ImState;
  Context_state : gmap string StateValue;
  extraFontMap : gmap string imgui.Font;
  strings : Z -> string;
  go_rand : Z
}.

Definition set_im (x : ImState) (w : World) : World :=
  mkWorld x (Context_state w) (extraFontMap w) (strings w) (go_rand w).
Definition set_Context_state (x : gmap string StateValue) (w : World) : World :=
  mkWorld (im w) x (extraFontMap w) (strings w) (go_rand w).
Definition set_strings (x : Z -> string) (w : World) : World :=
  mkWorld (im w) (Context_state w) (extraFontMap w) x (go_rand w).
Definition set_go_rand (x : Z) (w : World) : World :=
  mkWorld (im w) (Context_state w) (extraFontMap w) (strings w) x.

(** A build either panics or returns a value, the new world and the backend
    calls it made, in order. *)
Inductive Res (A : Type) : Type :=
| Ok (a : A) (w : World) (t : list imgui.Call)
| Panic (msg : string).
Arguments Ok {A} a w t.
Arguments Panic {A} msg.

Definition M (A : Type) : Type := World -> Res A.

#[global] Instance M_ret : MRet M := fun A a w => Ok a w [].

#[global] Instance M_bind : MBind M := fun A B f m w =>
  match m w with
  | Ok a w1 t1 =>
      match f a w1 with
      | Ok b w2 t2 => Ok b w2 (t1 ++ t2)
      | Panic msg => Panic msg
      end
  | Panic msg => Panic msg
  end.

(** Reading one of giu's variables. *)
Definition read {A : Type} (field : World -> A) : M A := fun w => Ok (field w) w [].

Definition panic {A : Type} (msg : string) : M A := fun _ => Panic msg.

(** The world once Dear ImGui has carried out a call. *)
Definition after (c : imgui.Call) (w : World) : World := set_im (im_step c (im w)) w.

(** A backend operation without result, and one with a result. *)
Definition call (c : imgui.Call) : M unit := fun w => Ok tt (after c w) [c].

Definition ask {A : Type} (answer : ImState -> A) (c : A -> imgui.Call) : M A :=
  fun w => let a := answer (im w) in Ok a (after (c a) w) [c a].

Fixpoint for_each {A : Type} (f : A -> M unit) (l : list A) : M unit :=
  match l with
  | [] => mret tt
  | x :: l' => f x ;; for_each f l'
  end.

(** [for k, v := range m]: the entries in the order the runtime picks. *)
Definition range {V : Type} (m : gmap Z V) : M (list (Z * V)) :=
  fun w => Ok (map_range (go_rand w) m) (set_go_rand (map_range_next (go_rand w)) w) [].

(** [len] of a slice and of a map. *)
Definition len {A : Type} (l : list A) : Z := Z.of_nat (length l).
Definition len_map {V : Type} (m : gmap Z V) : Z := Z.of_nat (size m).

(** Reading and writing an application string through its pointer. *)
Definition deref (p : Z) : M string :=
  fun w => if p =? 0 then Panic "invalid memory address or nil pointer dereference"
           else Ok (strings w p) w [].

Definition store_string (p : Z) (s : string) (mem : Z -> string) : Z -> string :=
  fun q => if q =? p then s else mem q.

Definition assign (p : Z) (s : string) : M unit :=
  fun w => if p =? 0 then Panic "invalid memory address or nil pointer dereference"
           else Ok tt (set_strings (store_string p s (strings w)) w) [].

(** ** Widgets and layouts *)

(** The dynamic type of a widget value, as far as a type switch can tell. *)
Inductive WidgetType : Type :=
| T_AlignmentSetter
| T_SelectableWidget
| T_ComboWidget
| T_ComboCustomWidget
| T_StyleSetter
| T_InputTextWidget
| T_LabelWidget
| T_other (name : string).

(** A non-nil [Widget] interface value: its dynamic type and its [Build]. *)
Record Widget : Type := mkWidget { dynamic_type : WidgetType; Build : M unit }.

(** [Layout] is a slice of [Widget]: [None] is the nil slice, and an entry
    [None] a nil widget. *)
Definition Layout : Type := option (list (option Widget)).

Definition Layout_items (l : Layout) : list (option Widget) := default [] l.

(** Modelled from the spec: [Layout.Build] (Layout.go is outside the modelled
    files).  Widgets are built in order; nil entries are skipped without
    building. *)
Definition Layout_Build (l : Layout) : M unit :=
  for_each (fun w => match w with Some x => Build x | None => mret tt end)
           (Layout_items l).

(** Modelled from the spec: [Layout.Range], which hands every entry of the
    layout to the function, in order. *)
Definition Layout_Range (l : Layout) (rangeFunc : option Widget -> M unit) : M unit :=
  for_each rangeFunc (Layout_items l).

(** Modelled from the spec: the [Label] widget, whose build is the backend's
    text draw primitive. *)
Definition Label (text : string) : Widget :=
  mkWidget T_LabelWidget (call (imgui.Text (tStr text))).

(** ** giu's wrappers of the backend *)

(** Modelled from the spec: [GetCursorPos], [SetCursorPos],
    [GetAvailableRegion], [SetNextWindowPos] and [IsKeyPressed], the cursor,
    region and key capabilities of the drawing backend. *)
Definition GetCursorPos : M image.Point := ask im_CursorPos imgui.GetCursorPos.

Definition SetCursorPos (pos : image.Point) : M unit := call (imgui.SetCursorPos pos).

Definition GetAvailableRegion : M (float32 * float32) :=
  ask im_AvailableRegion (fun r => imgui.GetAvailableRegion (fst r) (snd r)).

Definition SetNextWindowPos (x y : float32) : M unit := call (imgui.SetNextWindowPos x y).

Definition IsKeyPressed (key : Z) : M bool :=
  ask (im_IsKeyPressed key) (imgui.IsKeyPressed key).

(** Style.go *)
Definition PushFont (font : option FontInfo) : M bool :=
  match font with
  | None => mret false
  | Some font =>
      fonts ← read extraFontMap;
      match fonts !! FontInfo_String font with
      | Some f => call (imgui.PushFont f) ;; mret true
      | None => mret false
      end
  end.

Definition PopFont : M unit := call imgui.PopFont.

Definition PushItemWidth (width : float32) : M unit := call (imgui.PushItemWidth width).

Definition PopItemWidth : M unit := call imgui.PopItemWidth.

Definition GetWindowPadding : M (float32 * float32) :=
  vec2 ← ask im_WindowPadding imgui.CurrentStyle_WindowPadding;
  mret (imgui.X vec2, imgui.Y vec2).

Definition GetItemSpacing : M (float32 * float32) :=
  vec2 ← ask im_ItemSpacing imgui.CurrentStyle_ItemSpacing;
  mret (imgui.X vec2, imgui.Y vec2).

(** [StyleVarID.IsVec2]: the lookup table and [result && ok]. *)
Definition StyleVarID_IsVec2 (s : Z) : bool :=
  let lookup : gmap Z bool :=
    <[imgui_StyleVarWindowPadding := true]> (
    <[imgui_StyleVarWindowMinSize := true]> (
    <[imgui_StyleVarWindowTitleAlign := true]> (
    <[imgui_StyleVarFramePadding := true]> (
    <[imgui_StyleVarItemSpacing := true]> (
    <[imgui_StyleVarItemInnerSpacing := true]> (
    <[imgui_StyleVarButtonTextAlign := true]> (
    <[imgui_StyleVarSelectableTextAlign := true]> ∅))))))) in
  match lookup !! s with
  | Some result => result && true
  | None => false && false
  end.

(** ** The style setter (Style.go) *)

(** A value of the [styles] map, by its dynamic type: the setters store an
    [imgui.Vec2] or a [float32]; anything else falls through both type
    switches. *)
Inductive StyleValue : Type :=
| Style_Vec2 (v : imgui.Vec2)
| Style_float32 (v : float32)
| Style_other.

Record StyleSetter : Type := mkStyleSetter {
  ss_colors : gmap Z Color;
  ss_styles : gmap Z StyleValue;
  ss_font : option FontInfo;
  ss_disabled : bool;
  ss_layout : Layout
}.

(** The body of the loop over [ss.styles]. *)
Definition push_style (kv : Z * StyleValue) : M unit :=
  let '(k, v) := kv in
  if StyleVarID_IsVec2 k then
    let value :=
      match v with
      | Style_Vec2 typed => typed
      | Style_float32 typed => imgui.mkVec2 typed typed
      | Style_other => imgui.mkVec2 f32_zero f32_zero
      end in
    call (imgui.PushStyleVarVec2 k value)
  else
    let value :=
      match v with
      | Style_float32 typed => typed
      | Style_Vec2 typed => imgui.X typed
      | Style_other => f32_zero
      end in
    call (imgui.PushStyleVarFloat k value).

(** The body of the loop over [ss.colors]. *)
Definition push_color (kv : Z * Color) : M unit :=
  let '(k, v) := kv in call (imgui.PushStyleColor k (ToVec4Color v)).

Definition StyleSetter_Build (ss : StyleSetter) : M unit :=
  if bool_decide (ss_layout ss = None :> option (list (option Widget)))
     || (len (Layout_items (ss_layout ss)) =? 0) then mret tt
  else
    cs ← range (ss_colors ss);
    for_each push_color cs ;;
    vs ← range (ss_styles ss);
    for_each push_style vs ;;
    isFontPushed ← match ss_font ss with
                   | Some f => PushFont (Some f)
                   | None => mret false
                   end;
    call (imgui.BeginDisabled (ss_disabled ss)) ;;
    Layout_Build (ss_layout ss) ;;
    call imgui.EndDisabled ;;
    (if isFontPushed : bool then PopFont else mret tt) ;;
    call (imgui.PopStyleColorV (len_map (ss_colors ss))) ;;
    call (imgui.PopStyleVarV (len_map (ss_styles ss))).

Definition StyleSetter_Widget (ss : StyleSetter) : Widget :=
  mkWidget T_StyleSetter (StyleSetter_Build ss).

(** ** The alignment setter (Alignment.go) *)

(** [AlignmentType] is a byte; the three named values. *)
Definition AlignLeft : Z := 0.
Definition AlignCenter : Z := 1.
Definition AlignRight : Z := 2.

Record AlignmentSetter : Type := mkAlignmentSetter {
  a_alignType : Z;
  a_layout : Layout;
  a_id : string
}.

Definition GetWidgetWidth (w : Widget) : M float32 :=
  currentPos ← GetCursorPos;
  call (imgui.PushStyleVarFloat imgui_StyleVarAlpha (float32_of_int 0)) ;;
  Build w ;;
  call imgui.PopStyleVar ;;
  call imgui.SameLine ;;
  '(spacingW, _) ← GetItemSpacing;
  pos ← GetCursorPos;
  let result :=
    f32_sub (float32_of_int (int_sub (image.X pos) (image.X currentPos))) spacingW in
  SetCursorPos currentPos ;;
  mret result.

(** The function literal that [AlignmentSetter.Build] hands to [Range]. *)
Definition AlignmentSetter_Build_rangeFunc (a : AlignmentSetter) (item : option Widget)
  : M unit :=
  match item with
  | None => mret tt
  | Some item =>
      match dynamic_type item with
      | T_AlignmentSetter => Build item
      | T_SelectableWidget | T_ComboWidget | T_ComboCustomWidget => Build item
      | _ =>
          currentPos ← GetCursorPos;
          w ← GetWidgetWidth item;
          '(availableW, _) ← GetAvailableRegion;
          '(paddingW, _) ← GetWindowPadding;
          let availableW := f32_add availableW (f32_mul (float32_of_int 2) paddingW) in
          (if a_alignType a =? AlignLeft then
             SetCursorPos currentPos
           else if a_alignType a =? AlignCenter then
             SetCursorPos
               (image.Pt
                  (int_of_float32
                     (f32_sub (f32_div availableW (float32_of_int 2))
                              (f32_div w (float32_of_int 2))))
                  (image.Y currentPos))
           else if a_alignType a =? AlignRight then
             SetCursorPos
               (image.Pt (int_of_float32 (f32_sub availableW w)) (image.Y currentPos))
           else
             panic ("giu: (*AlignSetter).Build: unknown align type "
                    +:+ pretty (a_alignType a))) ;;
          Build item
      end
  end.

Definition AlignmentSetter_Build (a : AlignmentSetter) : M unit :=
  if bool_decide (a_layout a = None :> option (list (option Widget))) then mret tt
  else Layout_Range (a_layout a) (AlignmentSetter_Build_rangeFunc a).

Definition AlignmentSetter_Widget (a : AlignmentSetter) : Widget :=
  mkWidget T_AlignmentSetter (AlignmentSetter_Build a).

(** ** The state store and the autocomplete input (TextWidgets.go) *)

(** Modelled from the spec: the State Store of giu's [Context], with
    [get(id) -> state-or-absent] and [set(id, state)]. *)
Definition Context_GetState (id : string) : M (option StateValue) :=
  read (fun w => Context_state w !! id).

Definition Context_SetState (id : string) (s : StateValue) : M unit :=
  fun w => Ok tt (set_Context_state (<[id := s]> (Context_state w)) w) [].

(** Modelled from the spec: [Assert], a fatal assertion. *)
Definition Assert (cond : bool) (t method msg : string) : M unit :=
  if cond then mret tt
  else panic ("giu: (*" +:+ t +:+ ")." +:+ method +:+ ": " +:+ msg).

(** The local [state] of [InputTextWidget.Build] is a pointer to the
    [inputTextState] that the store holds under the widget's label: reading
    and writing [state.autoCompleteCandidates] reads and writes that entry. *)
Definition state_autoCompleteCandidates (id : string) : M fuzzy.Matches :=
  fun w => match Context_state w !! id with
           | Some (State_inputTextState s) => Ok (autoCompleteCandidates s) w []
           | _ => Panic "invalid memory address or nil pointer dereference"
           end.

Definition set_state_autoCompleteCandidates (id : string) (ms : fuzzy.Matches) : M unit :=
  fun w => match Context_state w !! id with
           | Some (State_inputTextState _) =>
               Ok tt (set_Context_state
                        (<[id := State_inputTextState (mk_inputTextState ms)]>
                           (Context_state w)) w) []
           | _ => Panic "invalid memory address or nil pointer dereference"
           end.

(** [value] is the address of the application's string; [onChange] is the
    application's callback, given by what it does to the application's
    strings ([None] is the nil func).  The input callback [cb] is handed to
    Dear ImGui untouched and is part of its answer. *)
Record InputTextWidget : Type := mkInputTextWidget {
  i_label : string;
  i_hint : string;
  i_value : Z;
  i_width : float32;
  i_candidates : list string;
  i_flags : Z;
  i_onChange : option ((Z -> string) -> Z -> string)
}.

Definition run_onChange (f : (Z -> string) -> Z -> string) : M unit :=
  fun w => Ok tt (set_strings (f (strings w)) w) [].

Definition InputTextWidget_Build (i : InputTextWidget) : M unit :=
  (* Get state *)
  s ← Context_GetState (i_label i);
  match s with
  | None => Context_SetState (i_label i) (State_inputTextState (mk_inputTextState []))
  | Some s =>
      let isOk := match s with State_inputTextState _ => true | State_other _ => false end in
      Assert isOk "InputTextWidget" "Build" "wrong state type recovered."
  end ;;
  (if negb (f32_eqb (i_width i) (float32_of_int 0)) then PushItemWidth (i_width i)
   else mret tt) ;;
  text ← deref (i_value i);
  assign (i_value i) (tStrPtr text) ;;
  '(isChanged, text') ←
    ask (im_InputText (i_label i) (i_hint i) (tStrPtr text) (i_flags i))
        (fun r => imgui.InputTextWithHint (i_label i) (i_hint i) (tStrPtr text)
                    (i_flags i) (fst r) (snd r));
  assign (i_value i) text' ;;
  match isChanged, i_onChange i with
  | true, Some onChange => run_onChange onChange
  | _, _ => mret tt
  end ;;
  (if isChanged : bool then
     (* Enable auto complete *)
     if 0 <? len (i_candidates i) then
       value ← deref (i_value i);
       let matches := fuzzy_Find value (i_candidates i) in
       if 0 <? len matches then
         let size := Z.min 5 (len matches) in
         let matches := take (Z.to_nat size) matches in
         set_state_autoCompleteCandidates (i_label i) matches
       else mret tt
     else mret tt
   else mret tt) ;;
  (* Draw autocomplete list *)
  candidates ← state_autoCompleteCandidates (i_label i);
  (if 0 <? len candidates then
     let labels : Layout := Some (map (fun m => Some (Label (fuzzy.Str m))) candidates) in
     rmin ← ask im_ItemRectMin imgui.GetItemRectMin;
     rmax ← ask im_ItemRectMax imgui.GetItemRectMax;
     SetNextWindowPos (imgui.X rmin) (imgui.Y rmax) ;;
     call imgui.BeginTooltip ;;
     Layout_Build labels ;;
     call imgui.EndTooltip ;;
     (* Press enter will replace value string with first match candidate *)
     pressed ← IsKeyPressed KeyEnter;
     if pressed : bool then
       candidates ← state_autoCompleteCandidates (i_label i);
       match candidates with
       | m :: _ =>
           assign (i_value i) (fuzzy.Str m) ;;
           set_state_autoCompleteCandidates (i_label i) []
       | [] => panic "index out of range [0] with length 0"
       end
     else mret tt
   else mret tt) ;;
  (* the deferred PopItemWidth *)
  (if negb (f32_eqb (i_width i) (float32_of_int 0)) then PopItemWidth else mret tt).

Definition InputTextWidget_Widget (i : InputTextWidget) : Widget :=
  mkWidget T_InputTextWidget (InputTextWidget_Build i).

(** ** The fluent setters and the push and pop helpers

    The setters have pointer receivers and return their receiver; here each
    gives the setter's value after the call.  The maps of a [StyleSetter]
    are those made by [Style()]. *)








Definition PushWindowPadding (width height : float32) : M unit :=
  call (imgui.PushStyleVarVec2 imgui_StyleVarWindowPadding (imgui.mkVec2 width height)).

Definition PushFramePadding (width height : float32) : M unit :=
  call (imgui.PushStyleVarVec2 imgui_StyleVarFramePadding (imgui.mkVec2 width height)).

Definition PushItemSpacing (width height : float32) : M unit :=
  call (imgui.PushStyleVarVec2 imgui_StyleVarItemSpacing (imgui.mkVec2 width height)).

Definition PushButtonTextAlign (width height : float32) : M unit :=
  call (imgui.PushStyleVarVec2 imgui_StyleVarButtonTextAlign (imgui.mkVec2 width height)).

Definition PushSelectableTextAlign (width height : float32) : M unit :=
  call (imgui.PushStyleVarVec2 imgui_StyleVarSelectableTextAlign
          (imgui.mkVec2 width height)).

Definition PopStyle : M unit := call imgui.PopStyleVar.

(** Alignment.go *)
Definition AlignmentSetter_To (widgets : Layout) (a : AlignmentSetter) : AlignmentSetter :=
  mkAlignmentSetter (a_alignType a) widgets (a_id a).

(** TextWidgets.go *)
Definition InputTextWidget_AutoComplete (candidates : list string) (i : InputTextWidget)
  : InputTextWidget :=
  mkInputTextWidget (i_label i) (i_hint i) (i_value i) (i_width i) candidates
                    (i_flags i) (i_onChange i).

Definition InputTextWidget_Size (width : float32) (i : InputTextWidget) : InputTextWidget :=
  mkInputTextWidget (i_label i) (i_hint i) (i_value i) width (i_candidates i)
                    (i_flags i) (i_onChange i).

(** ** Reading a build

    The vocabulary of the theorems: the world after a list of calls, the call
    a loop body makes, tallies over a list of calls, and the values the
    locals of [InputTextWidget.Build] take in one build. *)

Definition run (t : list imgui.Call) (w : World) : World :=
  fold_left (fun w c => after c w) t w.

(** Dear ImGui's state after a list of calls. *)
Definition im_run (t : list imgui.Call) (s : ImState) : ImState :=
  fold_left (fun s c => im_step c s) t s.


Definition style_call (kv : Z * StyleValue) : imgui.Call :=
  if StyleVarID_IsVec2 (fst kv) then
    imgui.PushStyleVarVec2 (fst kv)
      match snd kv with
      | Style_Vec2 typed => typed
      | Style_float32 typed => imgui.mkVec2 typed typed
      | Style_other => imgui.mkVec2 f32_zero f32_zero
      end
  else
    imgui.PushStyleVarFloat (fst kv)
      match snd kv with
      | Style_float32 typed => typed
      | Style_Vec2 typed => imgui.X typed
      | Style_other => f32_zero
      end.

Definition tally (f : imgui.Call -> Z) (t : list imgui.Call) : Z :=
  fold_right (fun c n => f c + n) 0 t.













(** The widgets the alignment setter builds as they are, without measuring
    or placing them. *)
Definition bypassed (item : Widget) : bool :=
  match dynamic_type item with
  | T_AlignmentSetter | T_SelectableWidget | T_ComboWidget | T_ComboCustomWidget => true
  | _ => false
  end.


(** The matches the store holds for an identifier (none when there is no
    input-box state under it). *)
Definition stored_matches (id : string) (w : World) : fuzzy.Matches :=
  match Context_state w !! id with
  | Some (State_inputTextState s) => autoCompleteCandidates s
  | _ => []
  end.

(** Dear ImGui's state when the input box is drawn. *)
Definition im_at_input (i : InputTextWidget) (w : World) : ImState :=
  if negb (f32_eqb (i_width i) (float32_of_int 0))
  then im_step (imgui.PushItemWidth (i_width i)) (im w) else im w.

(** The answer of [imgui.InputTextWithHint]: [isChanged] and the new text. *)
Definition input_answer (i : InputTextWidget) (w : World) : bool * string :=
  im_InputText (i_label i) (i_hint i) (tStrPtr (strings w (i_value i))) (i_flags i)
    (im_at_input i w).

(** The application's strings once the edit is written back and [onChange]
    has run. *)
Definition strings_after_input (i : InputTextWidget) (w : World) : Z -> string :=
  let mem := store_string (i_value i) (snd (input_answer i w))
               (store_string (i_value i) (tStrPtr (strings w (i_value i))) (strings w)) in
  match fst (input_answer i w), i_onChange i with
  | true, Some onChange => onChange mem
  | _, _ => mem
  end.

(** What [fuzzy.Find] returns in this build. *)
Definition found (i : InputTextWidget) (w : World) : fuzzy.Matches :=
  fuzzy_Find (strings_after_input i w (i_value i)) (i_candidates i).

(** [state.autoCompleteCandidates] when the autocomplete list is drawn. *)
Definition matches_at_draw (i : InputTextWidget) (w : World) : fuzzy.Matches :=
  if fst (input_answer i w) && (0 <? len (i_candidates i)) && (0 <? len (found i w))
  then take (Z.to_nat (Z.min 5 (len (found i w)))) (found i w)
  else stored_matches (i_label i) w.



Definition item_width_pushes : list imgui.Call -> Z :=
  tally (fun c => match c with imgui.PushItemWidth _ => 1 | _ => 0 end).

Definition item_width_pops : list imgui.Call -> Z :=
  tally (fun c => match c with imgui.PopItemWidth => 1 | _ => 0 end).



End Giu.

Arguments Ok {E A} a w t.
Arguments Panic {E A} msg.

(** ** A small concrete backend

    One window with a fixed-pitch font: a text of [n] characters is an item
    10·n wide and 13 high, an input box an item 100 wide and 19 high.  An
    item is placed at the cursor, after which the cursor moves to the start
    of the next line; [SameLine] moves it behind the last item.  The region
    still available is what lies between the cursor and the content
    region's far corner. *)
Module demo.

Record state : Type := mk {
  cursor : image.Point;
  line_end : image.Point;
  line_start : Z;
  content_max : image.Point;
  padding : Z * Z;
  spacing : Z * Z;
  item_min : image.Point;
  item_max : image.Point;
  keys_pressed : list Z;
  typed : option string
}.

Definition place (wd ht : Z) (s : state) : state :=
  mk (image.Pt (line_start s) (image.Y (cursor s) + ht + snd (spacing s)))
     (image.Pt (image.X (cursor s) + wd) (image.Y (cursor s)))
     (line_start s) (content_max s) (padding s) (spacing s)
     (cursor s)
     (image.Pt (image.X (cursor s) + wd) (image.Y (cursor s) + ht))
     (keys_pressed s) (typed s).

Definition move (p : image.Point) (s : state) : state :=
  mk p (line_end s) (line_start s) (content_max s) (padding s) (spacing s)
     (item_min s) (item_max s) (keys_pressed s) (typed s).

Definition step (c : imgui.Call) (s : state) : state :=
  match c with
  | imgui.Text text => place (10 * Z.of_nat (String.length text)) 13 s
  | imgui.InputTextWithHint _ _ _ _ _ _ => place 100 19 s
  | imgui.SameLine =>
      move (image.Pt (image.X (line_end s) + fst (spacing s)) (image.Y (line_end s))) s
  | imgui.SetCursorPos p => move p s
  | _ => s
  end.

Definition vec2 (p : Z * Z) : imgui.Vec2 :=
  imgui.mkVec2 (float32_of_int (fst p)) (float32_of_int (snd p)).

Definition point_vec2 (p : image.Point) : imgui.Vec2 :=
  imgui.mkVec2 (float32_of_int (image.X p)) (float32_of_int (image.Y p)).

Definition AvailableRegion (s : state) : float32 * float32 :=
  (float32_of_int (image.X (content_max s) - image.X (cursor s)),
   float32_of_int (image.Y (content_max s) - image.Y (cursor s))).

Definition InputText (label hint text : string) (flags : Z) (s : state) : bool * string :=
  match typed s with
  | Some text' => (true, text')
  | None => (false, text)
  end.

(** A plain subsequence matcher in the place of [fuzzy.Find]: the candidates
    in which the characters of the pattern occur in order, in the order
    given; no match for the empty pattern. *)
Fixpoint subsequence (pattern str : list Ascii.ascii) (pos : Z) : option (list Z) :=
  match str with
  | [] => match pattern with [] => Some [] | _ :: _ => None end
  | c :: str' =>
      match pattern with
      | [] => Some []
      | p :: pattern' =>
          if Ascii.eqb p c
          then cons pos <$> subsequence pattern' str' (pos + 1)
          else subsequence pattern str' (pos + 1)
      end
  end.

Fixpoint Find_from (pattern : string) (data : list string) (index : Z) : fuzzy.Matches :=
  match data with
  | [] => []
  | str :: data' =>
      match subsequence (String.list_ascii_of_string pattern) (String.list_ascii_of_string str) 0 with
      | Some ixs => fuzzy.mkMatch str index ixs 0 :: Find_from pattern data' (index + 1)
      | None => Find_from pattern data' (index + 1)
      end
  end.

Definition Find (pattern : string) (data : list string) : fuzzy.Matches :=
  if String.eqb pattern "" then [] else Find_from pattern data 0.

(** A color as the four 16-bit channels its [RGBA] method returns. *)
Definition rgba : Type := Z * Z * Z * Z.

Definition rgba_vec4 (c : rgba) : imgui.Vec4 :=
  let '(r, g, b, a) := c in
  let mask := float32_of_int 65535 in
  imgui.mkVec4 (f32_div (float32_of_int r) mask) (f32_div (float32_of_int g) mask)
               (f32_div (float32_of_int b) mask) (f32_div (float32_of_int a) mask).

(** The constants are those of Dear ImGui's style-variable enumeration and
    of GLFW's key codes; fonts go by their registry name; no translator is
    installed; maps are visited in key order. *)
Definition externals : Externals := {|
  ImState := state;
  im_step := step;
  im_CursorPos := cursor;
  im_AvailableRegion := AvailableRegion;
  im_WindowPadding := fun s => vec2 (padding s);
  im_ItemSpacing := fun s => vec2 (spacing s);
  im_ItemRectMin := fun s => point_vec2 (item_min s);
  im_ItemRectMax := fun s => point_vec2 (item_max s);
  im_IsKeyPressed := fun k s => bool_decide (k ∈ keys_pressed s);
  im_InputText := InputText;
  imgui_StyleVarAlpha := 0;
  imgui_StyleVarWindowPadding := 2;
  imgui_StyleVarWindowMinSize := 5;
  imgui_StyleVarWindowTitleAlign := 6;
  imgui_StyleVarFramePadding := 11;
  imgui_StyleVarItemSpacing := 14;
  imgui_StyleVarItemInnerSpacing := 15;
  imgui_StyleVarButtonTextAlign := 23;
  imgui_StyleVarSelectableTextAlign := 24;
  Color := rgba;
  ToVec4Color := rgba_vec4;
  FontInfo := string;
  FontInfo_String := fun name => name;
  KeyEnter := 257;
  tStr := fun s => s;
  tStrPtr := fun s => s;
  fuzzy_Find := Find;
  map_range := fun V _ m => map_to_list m;
  map_range_next := fun r => r + 1;
  map_range_perm := fun V _ m => Permutation_refl (map_to_list m)
|}.

(** A window 109 wide with padding 8 and item spacing (8, 4); the cursor at
    the top left of the content region; nothing typed, no key pressed. *)
Definition window : state :=
  mk (image.Pt 8 8) (image.Pt 8 8) 8 (image.Pt 101 192) (8, 8) (8, 4)
     (image.Pt 0 0) (image.Pt 0 0) [] None.

Definition world (s : state) (store : gmap string StateValue)
  (mem : Z -> string) : @World externals :=
  @mkWorld externals s store {[ "regular:14.00" := 7 ]} mem 0.

Definition start : @World externals := world window ∅ (fun _ => ""%string).

(** One label, five characters wide. *)
Definition hello : @Layout externals := Some [Some (@Label externals "hello")].


(** The same around the label, for a centered alignment. *)
Definition align (alignType : Z) : @AlignmentSetter externals :=
  @mkAlignmentSetter externals alignType hello "alignSetter".

(** An input box with three candidates, editing the string at address 1. *)
Definition input : InputTextWidget :=
  mkInputTextWidget "##InputText" "" 1 (float32_of_int 0) ["abc"; "xyz"; "abd"] 0 None.

(** The window when the user has typed a text (or nothing) and holds the
    given keys. *)
Definition typing (text : option string) (keys : list Z) : state :=
  mk (image.Pt 8 8) (image.Pt 8 8) 8 (image.Pt 101 192) (8, 8) (8, 4)
     (image.Pt 0 0) (image.Pt 0 0) keys text.

(** A store that holds one match for the input box from an earlier frame,
    and one that holds the state of a combo box under the same label. *)
Definition abd : fuzzy.Match := fuzzy.mkMatch "abd" 2 [0; 1] 0.

Definition stale : gmap string StateValue :=
  {[ "##InputText"%string := State_inputTextState (mk_inputTextState [abd]) ]}.

Definition clash : gmap string StateValue :=
  {[ "##InputText"%string := State_other "comboState" ]}.

End demo.

(** * Properties *)

Section Properties.
Context {E : Externals}.

(** ** The build monad *)

Lemma bind_unfold {A B : Type} (m : M A) (f : A -> M B) (w : World) :
  (m ≫= f) w =
  match m w with
  | Ok a w1 t1 =>
      match f a w1 with
      | Ok b w2 t2 => Ok b w2 (t1 ++ t2)
      | Panic msg => Panic msg
      end
  | Panic msg => Panic msg
  end.
Proof. reflexivity. Qed.



Lemma run_extraFontMap (t : list imgui.Call) (w : World) :
  extraFontMap (run t w) = extraFontMap w.
Proof.
  revert w. induction t as [|c t IH]; intros w; [reflexivity|].
  simpl. rewrite IH. reflexivity.
Qed.




Lemma tally_app (f : imgui.Call -> Z) (t1 t2 : list imgui.Call) :
  tally f (t1 ++ t2) = tally f t1 + tally f t2.
Proof. induction t1 as [|c t1 IH]; simpl; [reflexivity|]. rewrite IH. lia. Qed.

Lemma tally_map_const {A : Type} (f : imgui.Call -> Z) (g : A -> imgui.Call)
  (n : Z) (l : list A) :
  (forall x, f (g x) = n) -> tally f (map g l) = n * len l.
Proof.
  intros Hg. unfold len. induction l as [|x l IH]; simpl; [lia|].
  rewrite Hg, IH. lia.
Qed.


(** ** The style setter *)



Lemma go_rand_run (t : list imgui.Call) (w : World) : go_rand (run t w) = go_rand w.
Proof.
  revert w. induction t as [|c t IH]; intros w; [reflexivity|].
  simpl. rewrite IH. reflexivity.
Qed.

Lemma call_eq (c : imgui.Call) (w : World) : call c w = Ok tt (run [c] w) [c].
Proof. reflexivity. Qed.



Lemma tally_nil (f : imgui.Call -> Z) : tally f [] = 0.
Proof. reflexivity. Qed.

Lemma tally_cons (f : imgui.Call -> Z) (c : imgui.Call) (t : list imgui.Call) :
  tally f (c :: t) = f c + tally f t.
Proof. reflexivity. Qed.

Lemma style_call_pushes_var (kv : Z * StyleValue) :
  match style_call kv with
  | imgui.PushStyleVarVec2 _ _ | imgui.PushStyleVarFloat _ _ => True
  | _ => False
  end.
Proof. unfold style_call. destruct (StyleVarID_IsVec2 (fst kv)); exact I. Qed.





(** The classification table of [IsVec2]. *)
Lemma StyleVarID_IsVec2_table (s : Z) :
  StyleVarID_IsVec2 s = true <->
  In s [imgui_StyleVarWindowPadding; imgui_StyleVarWindowMinSize;
        imgui_StyleVarWindowTitleAlign; imgui_StyleVarFramePadding;
        imgui_StyleVarItemSpacing; imgui_StyleVarItemInnerSpacing;
        imgui_StyleVarButtonTextAlign; imgui_StyleVarSelectableTextAlign].
Proof.
  unfold StyleVarID_IsVec2. simpl In.
  repeat (rewrite lookup_insert; case_decide; [subst; simpl; tauto|]).
  rewrite lookup_empty. simpl. intuition congruence.
Qed.

(** C5. Building a style setter whose sub-layout is nil or of length zero
    returns at once: no backend call is made and the world is untouched,
    whatever colors, style variables, font and disabled flag are configured. *)
Theorem StyleSetter_Build_empty_layout (colors : gmap Z Color)
  (styles : gmap Z StyleValue) (font : option FontInfo) (disabled : bool) (w : World) :
  StyleSetter_Build (mkStyleSetter colors styles font disabled None) w = Ok tt w [] /\
  StyleSetter_Build (mkStyleSetter colors styles font disabled (Some [])) w = Ok tt w [].
Proof. split; reflexivity. Qed.






(** ** The alignment setter *)





(** ** The autocomplete input *)

Lemma run_im (t : list imgui.Call) (w : World) : im (run t w) = im_run t (im w).
Proof.
  revert w. induction t as [|c t IH]; intros w; [reflexivity|].
  simpl. rewrite IH. reflexivity.
Qed.

Lemma run_Context_state (t : list imgui.Call) (w : World) :
  Context_state (run t w) = Context_state w.
Proof.
  revert w. induction t as [|c t IH]; intros w; [reflexivity|].
  simpl. rewrite IH. reflexivity.
Qed.

Lemma run_strings (t : list imgui.Call) (w : World) : strings (run t w) = strings w.
Proof.
  revert w. induction t as [|c t IH]; intros w; [reflexivity|].
  simpl. rewrite IH. reflexivity.
Qed.

Lemma im_run_app (t1 t2 : list imgui.Call) (s : ImState) :
  im_run (t1 ++ t2) s = im_run t2 (im_run t1 s).
Proof. unfold im_run. apply fold_left_app. Qed.

Lemma im_run_cons (c : imgui.Call) (t : list imgui.Call) (s : ImState) :
  im_run (c :: t) s = im_run t (im_step c s).
Proof. reflexivity. Qed.

Lemma im_run_nil (s : ImState) : im_run [] s = s.
Proof. reflexivity. Qed.

(** The overlay: one text per stored match. *)
Lemma labels_Build (candidates : fuzzy.Matches) (w : World) :
  Layout_Build (Some (map (fun m => Some (Label (fuzzy.Str m))) candidates)) w =
  Ok tt (run (map (fun m => imgui.Text (tStr (fuzzy.Str m))) candidates) w)
        (map (fun m => imgui.Text (tStr (fuzzy.Str m))) candidates).
Proof.
  unfold Layout_Build. simpl Layout_items.
  revert w. induction candidates as [|m ms IH]; intros w; [reflexivity|].
  simpl. rewrite bind_unfold. simpl Build. rewrite call_eq. rewrite IH. reflexivity.
Qed.

Ltac unfold_build :=
  cbv [mbind M_bind mret M_ret Assert deref assign ask call read panic run_onChange
       state_autoCompleteCandidates set_state_autoCompleteCandidates
       SetNextWindowPos IsKeyPressed PushItemWidth PopItemWidth
       Context_GetState Context_SetState
       set_im set_strings set_Context_state set_go_rand after];
  cbn [im Context_state strings extraFontMap go_rand fst snd].

Ltac crunch Hs Hv Hans :=
  repeat progress
    (unfold_build;
     rewrite ?Hs, ?Hv, ?Hans, ?lookup_insert_eq, ?labels_Build,
       ?run_im, ?run_Context_state, ?run_strings, ?run_extraFontMap, ?go_rand_run,
       ?im_run_app, ?im_run_cons, ?im_run_nil;
     cbv beta iota; cbn [andb app autoCompleteCandidates]).

Ltac next_case :=
  match goal with
  | |- context [0 <? len (i_candidates ?i)] =>
      destruct (0 <? len (i_candidates i)) eqn:?
  | |- context [0 <? len (fuzzy_Find ?v ?c)] =>
      destruct (0 <? len (fuzzy_Find v c)) eqn:?
  | |- context [0 <? len ?l] => destruct (0 <? len l) eqn:?
  | |- context [im_IsKeyPressed KeyEnter ?s] =>
      destruct (im_IsKeyPressed KeyEnter s) eqn:?
  | |- context [match ?l with [] => _ | _ :: _ => _ end] =>
      destruct l as [|? ?] eqn:?; try discriminate
  end.

(** What a build of the input box comes to when the store holds an input-box
    state under its label. *)
Lemma InputTextWidget_Build_present (i : InputTextWidget) (w : World) (old : fuzzy.Matches) :
  i_value i <> 0 ->
  Context_state w !! i_label i = Some (State_inputTextState (mk_inputTextState old)) ->
  let wide := negb (f32_eqb (i_width i) (float32_of_int 0)) in
  let ans := input_answer i w in
  let input := imgui.InputTextWithHint (i_label i) (i_hint i)
                 (tStrPtr (strings w (i_value i))) (i_flags i) (fst ans) (snd ans) in
  let im1 := im_step input (im_at_input i w) in
  let candidates := matches_at_draw i w in
  let updated := fst ans && (0 <? len (i_candidates i)) && (0 <? len (found i w)) in
  let store1 :=
    if updated
    then <[i_label i := State_inputTextState (mk_inputTextState candidates)]> (Context_state w)
    else Context_state w in
  let rmin := im_ItemRectMin im1 in
  let im2 := im_step (imgui.GetItemRectMin rmin) im1 in
  let rmax := im_ItemRectMax im2 in
  let shown :=
    [imgui.GetItemRectMin rmin; imgui.GetItemRectMax rmax;
     imgui.SetNextWindowPos (imgui.X rmin) (imgui.Y rmax); imgui.BeginTooltip]
    ++ map (fun m => imgui.Text (tStr (fuzzy.Str m))) candidates
    ++ [imgui.EndTooltip] in
  let pressed := im_IsKeyPressed KeyEnter (im_run shown im1) in
  let overlay := if 0 <? len candidates
                 then shown ++ [imgui.IsKeyPressed KeyEnter pressed] else [] in
  let confirmed := (0 <? len candidates) && pressed in
  let store2 :=
    if confirmed
    then <[i_label i := State_inputTextState (mk_inputTextState [])]> store1
    else store1 in
  let mem2 :=
    match candidates with
    | m :: _ => if confirmed then store_string (i_value i) (fuzzy.Str m)
                                    (strings_after_input i w)
                else strings_after_input i w
    | [] => strings_after_input i w
    end in
  let closing := if wide then [imgui.PopItemWidth] else [] in
  InputTextWidget_Build i w =
  Ok tt (mkWorld (im_run closing (im_run overlay im1)) store2 (extraFontMap w) mem2 (go_rand w))
     ((if wide then [imgui.PushItemWidth (i_width i)] else [])
      ++ input :: overlay ++ closing).
Proof.
  intros Hv Hs. apply Z.eqb_neq in Hv. cbv zeta.
  unfold matches_at_draw, found, strings_after_input, input_answer, im_at_input,
    stored_matches.
  destruct w as [imw store fonts mem rand]. cbn [Context_state im strings extraFontMap go_rand] in *.
  rewrite Hs. cbn [autoCompleteCandidates].
  unfold InputTextWidget_Build.
  set (wide := negb (f32_eqb (i_width i) (float32_of_int 0))).
  set (imi := if wide then im_step (imgui.PushItemWidth (i_width i)) imw else imw).
  assert (Himi : imi = if wide then im_step (imgui.PushItemWidth (i_width i)) imw else imw)
    by reflexivity.
  clearbody imi.
  destruct (im_InputText (i_label i) (i_hint i) (tStrPtr (mem (i_value i))) (i_flags i) imi)
    as [changed text'] eqn:Hans.
  cbn [fst snd].
  destruct wide; subst imi; destruct changed; destruct (i_onChange i) as [onChange|].
  all: cbv beta iota; cbn [andb].
  all: crunch Hs Hv Hans.
  all: repeat (next_case; crunch Hs Hv Hans).
  all: try reflexivity.
  all: f_equal; try reflexivity.
  all: rewrite <- ?app_assoc; reflexivity.
Qed.

(** With no entry under the label, the build stores a fresh empty state and
    goes on as it would have with that entry in place. *)
Lemma InputTextWidget_Build_absent (i : InputTextWidget) (w : World) :
  Context_state w !! i_label i = None ->
  InputTextWidget_Build i w =
  InputTextWidget_Build i
    (set_Context_state
       (<[i_label i := State_inputTextState (mk_inputTextState [])]> (Context_state w)) w).
Proof.
  intros Hs. unfold InputTextWidget_Build.
  rewrite !(bind_unfold (Context_GetState (i_label i))).
  unfold Context_GetState, read. cbn [Context_state set_Context_state].
  rewrite Hs, lookup_insert_eq.
  rewrite !(bind_unfold (Context_SetState _ _)), !(bind_unfold (Assert _ _ _ _)).
  reflexivity.
Qed.

Lemma InputTextWidget_Build_wrong_type (i : InputTextWidget) (w : World) (name : string) :
  Context_state w !! i_label i = Some (State_other name) ->
  InputTextWidget_Build i w =
  Panic "giu: (*InputTextWidget).Build: wrong state type recovered.".
Proof.
  intros Hs. unfold InputTextWidget_Build.
  rewrite bind_unfold. unfold Context_GetState, read. rewrite Hs.
  rewrite bind_unfold. reflexivity.
Qed.

Lemma InputTextWidget_Build_nil_value (i : InputTextWidget) (w : World) (old : fuzzy.Matches) :
  i_value i = 0 ->
  Context_state w !! i_label i = Some (State_inputTextState (mk_inputTextState old)) ->
  InputTextWidget_Build i w = Panic "invalid memory address or nil pointer dereference".
Proof.
  intros Hv Hs. unfold InputTextWidget_Build.
  rewrite bind_unfold. unfold Context_GetState, read. rewrite Hs.
  rewrite bind_unfold. unfold Assert. cbv [mret M_ret].
  rewrite bind_unfold.
  destruct (negb (f32_eqb (i_width i) (float32_of_int 0))).
  - unfold PushItemWidth. rewrite call_eq, bind_unfold. unfold deref. rewrite Hv. reflexivity.
  - rewrite bind_unfold. unfold deref. rewrite Hv. reflexivity.
Qed.

Lemma store_after_change (i : InputTextWidget) (w : World) (old : fuzzy.Matches) :
  Context_state w !! i_label i = Some (State_inputTextState (mk_inputTextState old)) ->
  (if fst (input_answer i w) && (0 <? len (i_candidates i)) && (0 <? len (found i w))
   then <[i_label i := State_inputTextState (mk_inputTextState (matches_at_draw i w))]>
          (Context_state w)
   else Context_state w) !! i_label i
  = Some (State_inputTextState (mk_inputTextState (matches_at_draw i w))).
Proof.
  intros Hs. unfold matches_at_draw, stored_matches. rewrite Hs.
  destruct (fst (input_answer i w) && (0 <? len (i_candidates i)) && (0 <? len (found i w))).
  - apply lookup_insert_eq.
  - exact Hs.
Qed.

(** The outcome of a build of the input box whose state is in the store. *)
Lemma InputTextWidget_Build_outcome_present (i : InputTextWidget) (w : World)
  (old : fuzzy.Matches) :
  i_value i <> 0 ->
  Context_state w !! i_label i = Some (State_inputTextState (mk_inputTextState old)) ->
  exists w' t,
    InputTextWidget_Build i w = Ok tt w' t /\
    match matches_at_draw i w with
    | m :: ms =>
        In imgui.BeginTooltip t /\
        exists pressed : bool,
          (forall b, In (imgui.IsKeyPressed KeyEnter b) t <-> b = pressed) /\
          stored_matches (i_label i) w' = (if pressed then [] else m :: ms) /\
          strings w' = (if pressed
                        then store_string (i_value i) (fuzzy.Str m) (strings_after_input i w)
                        else strings_after_input i w)
    | [] =>
        ~ In imgui.BeginTooltip t /\
        (forall b, ~ In (imgui.IsKeyPressed KeyEnter b) t) /\
        stored_matches (i_label i) w' = [] /\
        strings w' = strings_after_input i w
    end.
Proof.
  intros Hv Hs.
  pose proof (InputTextWidget_Build_present i w old Hv Hs) as HB. cbv zeta in HB.
  set (wide := negb (f32_eqb (i_width i) (float32_of_int 0))) in HB.
  pose proof (store_after_change i w old Hs) as Hstore.
  destruct (matches_at_draw i w) as [|m ms] eqn:Hc.
  - change (0 <? len (@nil fuzzy.Match)) with false in HB.
    cbn [andb app map] in HB. rewrite im_run_nil in HB.
    eexists _, _. split; [exact HB|]. clear HB.
    unfold stored_matches. cbn [Context_state strings]. rewrite Hstore.
    cbn [autoCompleteCandidates].
    repeat split.
    + rewrite in_app_iff. simpl.
      destruct wide; simpl; intuition congruence.
    + intros b. rewrite in_app_iff. simpl.
      destruct wide; simpl; intuition congruence.
  - change (0 <? len (m :: ms)) with true in HB.
    cbn [andb] in HB.
    match type of HB with
    | context [im_IsKeyPressed KeyEnter ?s] =>
        set (pressed := im_IsKeyPressed KeyEnter s) in HB
    end.
    eexists _, _. split; [exact HB|]. clear HB.
    unfold stored_matches. cbn [Context_state strings].
    split.
    + rewrite in_app_iff. right. right. rewrite !in_app_iff. left. left. simpl. tauto.
    + exists pressed. split; [|split].
      * intros b. rewrite !in_app_iff. cbn [In].
        rewrite !in_app_iff, in_map_iff. cbn [In].
        split.
        -- intros H.
           destruct wide; simpl in H;
             repeat match goal with
                    | H : _ \/ _ |- _ => destruct H
                    | H : ex _ |- _ => destruct H
                    | H : _ /\ _ |- _ => destruct H
                    | H : False |- _ => destruct H
                    | H : imgui.IsKeyPressed _ _ = imgui.IsKeyPressed _ _ |- _ =>
                        injection H as H; symmetry; exact H
                    | H : _ = _ |- _ => discriminate H
                    end.
        -- intros ->. right. right. left. right. left. reflexivity.
      * destruct pressed.
        -- rewrite lookup_insert_eq. reflexivity.
        -- rewrite Hstore. reflexivity.
      * destruct pressed; reflexivity.
Qed.

(** The outcome of a build of the input box, whether its state is in the
    store already or is created by this build. *)
Lemma InputTextWidget_Build_outcome (i : InputTextWidget) (w : World) :
  i_value i <> 0 ->
  (forall name, Context_state w !! i_label i <> Some (State_other name)) ->
  exists w' t,
    InputTextWidget_Build i w = Ok tt w' t /\
    match matches_at_draw i w with
    | m :: ms =>
        In imgui.BeginTooltip t /\
        exists pressed : bool,
          (forall b, In (imgui.IsKeyPressed KeyEnter b) t <-> b = pressed) /\
          stored_matches (i_label i) w' = (if pressed then [] else m :: ms) /\
          strings w' = (if pressed
                        then store_string (i_value i) (fuzzy.Str m) (strings_after_input i w)
                        else strings_after_input i w)
    | [] =>
        ~ In imgui.BeginTooltip t /\
        (forall b, ~ In (imgui.IsKeyPressed KeyEnter b) t) /\
        stored_matches (i_label i) w' = [] /\
        strings w' = strings_after_input i w
    end.
Proof.
  intros Hv Hty.
  destruct (Context_state w !! i_label i) as [[[old]|name]|] eqn:Hs.
  - exact (InputTextWidget_Build_outcome_present i w old Hv Hs).
  - destruct (Hty name). reflexivity.
  - rewrite (InputTextWidget_Build_absent i w Hs).
    set (w0 := set_Context_state
                 (<[i_label i := State_inputTextState (mk_inputTextState [])]>
                    (Context_state w)) w).
    assert (Hs0 : Context_state w0 !! i_label i
                  = Some (State_inputTextState (mk_inputTextState []))).
    { unfold w0. cbn [Context_state set_Context_state]. apply lookup_insert_eq. }
    assert (Hm : matches_at_draw i w0 = matches_at_draw i w).
    { unfold matches_at_draw, stored_matches. rewrite Hs0, Hs. reflexivity. }
    pose proof (InputTextWidget_Build_outcome_present i w0 [] Hv Hs0) as H.
    rewrite Hm in H. exact H.
Qed.

(** C9. In a build of the input box, an entry under its label that is the
    state of another kind of widget makes the build panic with the
    assertion's message; with no entry under the label the build goes on
    exactly as if a fresh state without matches had been stored there, and
    when it returns the store holds an input-box state under the label. *)
Theorem InputTextWidget_Build_state_recovery (i : InputTextWidget) (w : World) :
  (forall name, Context_state w !! i_label i = Some (State_other name) ->
     InputTextWidget_Build i w =
     Panic "giu: (*InputTextWidget).Build: wrong state type recovered.") /\
  (Context_state w !! i_label i = None ->
     InputTextWidget_Build i w =
     InputTextWidget_Build i
       (set_Context_state
          (<[i_label i := State_inputTextState (mk_inputTextState [])]> (Context_state w))
          w) /\
     (i_value i <> 0 -> exists w' t, InputTextWidget_Build i w = Ok tt w' t) /\
     (forall w' t, InputTextWidget_Build i w = Ok tt w' t ->
        exists s, Context_state w' !! i_label i = Some (State_inputTextState s))).
Proof.
  split.
  - intros name Hs. exact (InputTextWidget_Build_wrong_type i w name Hs).
  - intros Hs. split; [exact (InputTextWidget_Build_absent i w Hs)|].
    set (w0 := set_Context_state
                 (<[i_label i := State_inputTextState (mk_inputTextState [])]>
                    (Context_state w)) w).
    assert (Hs0 : Context_state w0 !! i_label i
                  = Some (State_inputTextState (mk_inputTextState []))).
    { unfold w0. cbn [Context_state set_Context_state]. apply lookup_insert_eq. }
    split.
    + intros Hv.
      destruct (InputTextWidget_Build_outcome i w Hv) as (w' & t & HB & _).
      { intros name. rewrite Hs. discriminate. }
      eauto.
    + intros w' t HB. rewrite (InputTextWidget_Build_absent i w Hs) in HB. fold w0 in HB.
      clearbody w0.
      destruct (Z.eq_dec (i_value i) 0) as [Hv|Hv].
      { rewrite (InputTextWidget_Build_nil_value i w0 [] Hv Hs0) in HB. discriminate. }
      pose proof (InputTextWidget_Build_present i w0 [] Hv Hs0) as HE. cbv zeta in HE.
      rewrite HE in HB. injection HB as Hw' _. subst w'. cbn [Context_state].
      pose proof (store_after_change i w0 [] Hs0) as Hstore.
      match goal with
      | |- context [if ?b then <[_ := State_inputTextState (mk_inputTextState [])]> _ else _] =>
          destruct b
      end.
      * rewrite lookup_insert_eq. eauto.
      * rewrite Hstore. eauto.
Qed.

(** C8. In a build of the input box that does not panic: when matches are
    stored at the time the list is drawn, the Enter key is asked for once,
    and if it is pressed the application's string becomes the first stored
    match and the stored matches are cleared, while if it is not pressed
    both are left alone; when no matches are stored, the key is not asked
    for at all and neither the string nor the stored matches change. *)
Theorem InputTextWidget_Build_confirm (i : InputTextWidget) (w : World) :
  i_value i <> 0 ->
  (forall name, Context_state w !! i_label i <> Some (State_other name)) ->
  exists w' t,
    InputTextWidget_Build i w = Ok tt w' t /\
    match matches_at_draw i w with
    | m :: ms =>
        exists pressed : bool,
          (forall b, In (imgui.IsKeyPressed KeyEnter b) t <-> b = pressed) /\
          if pressed
          then strings w' (i_value i) = fuzzy.Str m /\
               stored_matches (i_label i) w' = []
          else strings w' = strings_after_input i w /\
               stored_matches (i_label i) w' = m :: ms
    | [] =>
        (forall b, ~ In (imgui.IsKeyPressed KeyEnter b) t) /\
        strings w' = strings_after_input i w /\
        stored_matches (i_label i) w' = []
    end.
Proof.
  intros Hv Hty.
  destruct (InputTextWidget_Build_outcome i w Hv Hty) as (w' & t & HB & H).
  exists w', t. split; [exact HB|].
  destruct (matches_at_draw i w) as [|m ms].
  - tauto.
  - destruct H as (_ & pressed & Hkey & Hst & Hmem).
    exists pressed. split; [exact Hkey|].
    destruct pressed.
    + split; [|exact Hst]. rewrite Hmem. unfold store_string.
      rewrite Z.eqb_refl. reflexivity.
    + tauto.
Qed.

(** C2 (amended). In a build of the input box in which the text changed, the
    candidate list is not empty and the fuzzy search finds nothing, the
    stored matches are not touched by the search: the list is drawn from
    them if there are any, and after the build they are what they were
    before it, unless Enter was pressed in this build, which clears them. *)
Theorem InputTextWidget_Build_no_match_keeps_matches (i : InputTextWidget) (w : World) :
  i_value i <> 0 ->
  (forall name, Context_state w !! i_label i <> Some (State_other name)) ->
  fst (input_answer i w) = true -> i_candidates i <> [] -> found i w = [] ->
  exists w' t,
    InputTextWidget_Build i w = Ok tt w' t /\
    (stored_matches (i_label i) w <> [] -> In imgui.BeginTooltip t) /\
    (~ In (imgui.IsKeyPressed KeyEnter true) t ->
     stored_matches (i_label i) w' = stored_matches (i_label i) w) /\
    (In (imgui.IsKeyPressed KeyEnter true) t -> stored_matches (i_label i) w' = []).
Proof.
  intros Hv Hty Hch Hcands Hfound.
  destruct (InputTextWidget_Build_outcome i w Hv Hty) as (w' & t & HB & H).
  exists w', t. split; [exact HB|].
  assert (Hm : matches_at_draw i w = stored_matches (i_label i) w).
  { unfold matches_at_draw. rewrite Hfound.
    change (0 <? len (@nil fuzzy.Match)) with false. rewrite andb_false_r. reflexivity. }
  rewrite Hm in H.
  destruct (stored_matches (i_label i) w) as [|m ms].
  - destruct H as (_ & Hkey & Hst & _). split; [congruence|]. split; [tauto|].
    intros Hin. destruct (Hkey true Hin).
  - destruct H as (Hshown & pressed & Hkey & Hst & _).
    split; [tauto|]. split.
    + intros Hno. destruct pressed; [|exact Hst].
      destruct Hno. apply Hkey. reflexivity.
    + intros Hin. apply Hkey in Hin. subst pressed. exact Hst.
Qed.


(** ** More on the style setter *)











(** X8. Each of the five push helpers for paddings, spacing and text alignment
    pushes one 2-D vector on a slot that [IsVec2] classifies as a vector,
    and one [PopStyle] after it pops one style variable. *)
Theorem Push_helpers_push_vectors :
  Forall
    (fun push : float32 -> float32 -> M unit =>
       exists slot,
         StyleVarID_IsVec2 slot = true /\
         forall width height w,
           (push width height ;; PopStyle) w =
           Ok tt (run [imgui.PushStyleVarVec2 slot (imgui.mkVec2 width height);
                       imgui.PopStyleVar] w)
              [imgui.PushStyleVarVec2 slot (imgui.mkVec2 width height);
               imgui.PopStyleVar])
    [PushWindowPadding; PushFramePadding; PushItemSpacing; PushButtonTextAlign;
     PushSelectableTextAlign].
Proof.
  repeat constructor.
  - exists imgui_StyleVarWindowPadding. split; [|reflexivity].
    apply StyleVarID_IsVec2_table. simpl. tauto.
  - exists imgui_StyleVarFramePadding. split; [|reflexivity].
    apply StyleVarID_IsVec2_table. simpl. tauto.
  - exists imgui_StyleVarItemSpacing. split; [|reflexivity].
    apply StyleVarID_IsVec2_table. simpl. tauto.
  - exists imgui_StyleVarButtonTextAlign. split; [|reflexivity].
    apply StyleVarID_IsVec2_table. simpl. tauto.
  - exists imgui_StyleVarSelectableTextAlign. split; [|reflexivity].
    apply StyleVarID_IsVec2_table. simpl. tauto.
Qed.
(** ** More on the alignment setter *)

Lemma for_each_ext {A : Type} (f g : A -> M unit) (l : list A) (w : World) :
  (forall x w, In x l -> f x w = g x w) -> for_each f l w = for_each g l w.
Proof.
  revert w. induction l as [|x l IH]; intros w H; [reflexivity|].
  simpl. rewrite !bind_unfold. rewrite (H x w) by (left; reflexivity).
  destruct (g x w) as [[] w1 t1|msg]; [|reflexivity].
  rewrite IH by (intros y w' Hy; apply H; right; exact Hy). reflexivity.
Qed.

Lemma for_each_skip {A : Type} (f : A -> M unit) (l : list A) (w : World) :
  (forall x w, In x l -> f x w = Ok tt w []) -> for_each f l w = Ok tt w [].
Proof.
  revert w. induction l as [|x l IH]; intros w H; [reflexivity|].
  simpl. rewrite bind_unfold. rewrite (H x w) by (left; reflexivity).
  rewrite IH by (intros y w' Hy; apply H; right; exact Hy). reflexivity.
Qed.

(** X9. The alignment setter changes nothing for entries it does not measure:
    over a layout whose entries are all nil or of a bypassed kind (another
    alignment setter, a selectable, a combo), its build is the plain build
    of the layout, whatever the alignment type, valid or not. *)
Theorem AlignmentSetter_Build_bypassed (a : AlignmentSetter) (w : World) :
  (forall item, In item (Layout_items (a_layout a)) ->
     item = None \/ exists x, item = Some x /\ bypassed x = true) ->
  AlignmentSetter_Build a w = Layout_Build (a_layout a) w.
Proof.
  intros Hall. unfold AlignmentSetter_Build.
  destruct (a_layout a) as [items|] eqn:Hl.
  - rewrite bool_decide_eq_false_2 by discriminate.
    unfold Layout_Range, Layout_Build. apply for_each_ext.
    intros item w' Hin. destruct (Hall item Hin) as [->|(x & -> & Hx)]; [reflexivity|].
    unfold AlignmentSetter_Build_rangeFunc. unfold bypassed in Hx.
    destruct (dynamic_type x); try discriminate; reflexivity.
  - rewrite bool_decide_eq_true_2 by reflexivity. reflexivity.
Qed.

(** X10. With a nil layout, or a layout of nil entries only, the build makes no
    backend call and leaves the world alone. *)
Theorem AlignmentSetter_Build_nothing_to_align (a : AlignmentSetter) (w : World) :
  (forall item, In item (Layout_items (a_layout a)) -> item = None) ->
  AlignmentSetter_Build a w = Ok tt w [].
Proof.
  intros Hall. unfold AlignmentSetter_Build.
  destruct (a_layout a) as [items|] eqn:Hl.
  - rewrite bool_decide_eq_false_2 by discriminate.
    unfold Layout_Range. apply for_each_skip.
    intros item w' Hin. rewrite (Hall item Hin). reflexivity.
  - rewrite bool_decide_eq_true_2 by reflexivity. reflexivity.
Qed.

(** X11. An alignment setter around another alignment setter does nothing of its
    own: the build of the outer one is the build of the inner one. *)
Theorem AlignmentSetter_Build_nested (outer inner : AlignmentSetter) (w : World) :
  AlignmentSetter_Build
    (AlignmentSetter_To (Some [Some (AlignmentSetter_Widget inner)]) outer) w
  = AlignmentSetter_Build inner w.
Proof.
  unfold AlignmentSetter_Build at 1. cbn [AlignmentSetter_To a_layout].
  rewrite bool_decide_eq_false_2 by discriminate.
  unfold Layout_Range, Layout_items, default. cbn [from_option id for_each].
  rewrite bind_unfold.
  match goal with
  | |- context [AlignmentSetter_Build_rangeFunc ?a ?item w] =>
      change (AlignmentSetter_Build_rangeFunc a item w)
        with (AlignmentSetter_Build inner w)
  end.
  destruct (AlignmentSetter_Build inner w) as [[] w1 t1|msg]; [|reflexivity].
  cbv [mret M_ret]. rewrite app_nil_r. reflexivity.
Qed.



(** ** More on the autocomplete input *)

(** The calls of a build of the input box and what it leaves alone, when the
    store holds an input-box state under its label. *)
Lemma InputTextWidget_Build_shape_present (i : InputTextWidget) (w : World)
  (old : fuzzy.Matches) :
  i_value i <> 0 ->
  Context_state w !! i_label i = Some (State_inputTextState (mk_inputTextState old)) ->
  exists w' overlay,
    InputTextWidget_Build i w =
    Ok tt w'
      ((if negb (f32_eqb (i_width i) (float32_of_int 0))
        then [imgui.PushItemWidth (i_width i)] else [])
       ++ imgui.InputTextWithHint (i_label i) (i_hint i)
            (tStrPtr (strings w (i_value i))) (i_flags i)
            (fst (input_answer i w)) (snd (input_answer i w))
       :: overlay
       ++ (if negb (f32_eqb (i_width i) (float32_of_int 0))
           then [imgui.PopItemWidth] else [])) /\
    extraFontMap w' = extraFontMap w /\ go_rand w' = go_rand w /\
    (forall id, id <> i_label i -> Context_state w' !! id = Context_state w !! id) /\
    ((matches_at_draw i w = [] /\ overlay = []) \/
     (matches_at_draw i w <> [] /\
      exists rmin rmax pressed,
        overlay =
        [imgui.GetItemRectMin rmin; imgui.GetItemRectMax rmax;
         imgui.SetNextWindowPos (imgui.X rmin) (imgui.Y rmax); imgui.BeginTooltip]
        ++ map (fun m => imgui.Text (tStr (fuzzy.Str m))) (matches_at_draw i w)
        ++ [imgui.EndTooltip; imgui.IsKeyPressed KeyEnter pressed])).
Proof.
  intros Hv Hs.
  pose proof (InputTextWidget_Build_present i w old Hv Hs) as HB. cbv zeta in HB.
  eexists _, _. split; [exact HB|]. clear HB.
  cbn [extraFontMap go_rand Context_state].
  split; [reflexivity|]. split; [reflexivity|]. split.
  - intros id Hid.
    repeat match goal with
           | |- context [if ?b then _ else _] => destruct b
           end;
      rewrite ?lookup_insert_ne by (intros Heq; apply Hid; symmetry; exact Heq);
      reflexivity.
  - destruct (matches_at_draw i w) as [|m ms] eqn:Hc.
    + left. split; reflexivity.
    + right. split; [discriminate|].
      change (0 <? len (m :: ms)) with true. cbv iota.
      do 3 eexists. rewrite <- !app_assoc. reflexivity.
Qed.

(** The same, whether the state is in the store already or is created by
    this build. *)
Lemma InputTextWidget_Build_shape (i : InputTextWidget) (w : World) :
  i_value i <> 0 ->
  (forall name, Context_state w !! i_label i <> Some (State_other name)) ->
  exists w' overlay,
    InputTextWidget_Build i w =
    Ok tt w'
      ((if negb (f32_eqb (i_width i) (float32_of_int 0))
        then [imgui.PushItemWidth (i_width i)] else [])
       ++ imgui.InputTextWithHint (i_label i) (i_hint i)
            (tStrPtr (strings w (i_value i))) (i_flags i)
            (fst (input_answer i w)) (snd (input_answer i w))
       :: overlay
       ++ (if negb (f32_eqb (i_width i) (float32_of_int 0))
           then [imgui.PopItemWidth] else [])) /\
    extraFontMap w' = extraFontMap w /\ go_rand w' = go_rand w /\
    (forall id, id <> i_label i -> Context_state w' !! id = Context_state w !! id) /\
    ((matches_at_draw i w = [] /\ overlay = []) \/
     (matches_at_draw i w <> [] /\
      exists rmin rmax pressed,
        overlay =
        [imgui.GetItemRectMin rmin; imgui.GetItemRectMax rmax;
         imgui.SetNextWindowPos (imgui.X rmin) (imgui.Y rmax); imgui.BeginTooltip]
        ++ map (fun m => imgui.Text (tStr (fuzzy.Str m))) (matches_at_draw i w)
        ++ [imgui.EndTooltip; imgui.IsKeyPressed KeyEnter pressed])).
Proof.
  intros Hv Hty.
  destruct (Context_state w !! i_label i) as [[[old]|name]|] eqn:Hs.
  - exact (InputTextWidget_Build_shape_present i w old Hv Hs).
  - destruct (Hty name). reflexivity.
  - rewrite (InputTextWidget_Build_absent i w Hs).
    set (w0 := set_Context_state
                 (<[i_label i := State_inputTextState (mk_inputTextState [])]>
                    (Context_state w)) w).
    assert (Hs0 : Context_state w0 !! i_label i
                  = Some (State_inputTextState (mk_inputTextState []))).
    { unfold w0. cbn [Context_state set_Context_state]. apply lookup_insert_eq. }
    assert (Hm : matches_at_draw i w0 = matches_at_draw i w).
    { unfold matches_at_draw, stored_matches. rewrite Hs0, Hs. reflexivity. }
    destruct (InputTextWidget_Build_shape_present i w0 [] Hv Hs0)
      as (w' & overlay & HB & Hf & Hr & Hst & Hov).
    rewrite Hm in Hov.
    exists w', overlay. split; [exact HB|]. split; [exact Hf|]. split; [exact Hr|].
    split; [|exact Hov].
    intros id Hid. rewrite (Hst id Hid). unfold w0. cbn [Context_state set_Context_state].
    apply lookup_insert_ne. intros Heq. apply Hid. symmetry. exact Heq.
Qed.
Lemma take_min_len {A : Type} (n : Z) (l : list A) :
  0 <= n -> take (Z.to_nat (Z.min n (len l))) l = take (Z.to_nat n) l.
Proof.
  intros Hn. unfold len. destruct (Z.le_ge_cases n (Z.of_nat (length l))) as [H|H].
  - rewrite Z.min_l by exact H. reflexivity.
  - rewrite Z.min_r by exact H. rewrite Nat2Z.id.
    rewrite firstn_all. symmetry. apply firstn_all2. lia.
Qed.

(** X15. The store never holds more than five matches for an input box: a
    search that finds something stores its first five results, in the order
    found, and a build never makes a list of at most five longer. *)
Theorem InputTextWidget_Build_keeps_five (i : InputTextWidget) (w : World) :
  i_value i <> 0 ->
  (forall name, Context_state w !! i_label i <> Some (State_other name)) ->
  exists w' t,
    InputTextWidget_Build i w = Ok tt w' t /\
    ((length (stored_matches (i_label i) w) <= 5)%nat ->
     (length (stored_matches (i_label i) w') <= 5)%nat) /\
    (fst (input_answer i w) = true -> i_candidates i <> [] -> found i w <> [] ->
     (In (imgui.IsKeyPressed KeyEnter true) t -> stored_matches (i_label i) w' = []) /\
     (~ In (imgui.IsKeyPressed KeyEnter true) t ->
      stored_matches (i_label i) w' = take 5 (found i w))).
Proof.
  intros Hv Hty.
  destruct (InputTextWidget_Build_outcome i w Hv Hty) as (w' & t & HB & H).
  exists w', t. split; [exact HB|].
  assert (Hcases :
    (matches_at_draw i w = take 5 (found i w) /\
     fst (input_answer i w) && (0 <? len (i_candidates i)) && (0 <? len (found i w)) = true)
    \/ (matches_at_draw i w = stored_matches (i_label i) w /\
        fst (input_answer i w) && (0 <? len (i_candidates i)) && (0 <? len (found i w))
        = false)).
  { unfold matches_at_draw.
    destruct (fst (input_answer i w) && (0 <? len (i_candidates i))
              && (0 <? len (found i w))).
    - left. split; [|reflexivity]. apply (take_min_len 5). lia.
    - right. split; reflexivity. }
  assert (Hlen : (length (stored_matches (i_label i) w) <= 5)%nat ->
                 (length (matches_at_draw i w) <= 5)%nat).
  { intros Hold. destruct Hcases as [[-> _]|[-> _]]; [|exact Hold].
    rewrite length_take. lia. }
  split.
  - intros Hold. specialize (Hlen Hold).
    destruct (matches_at_draw i w) as [|m ms].
    + destruct H as (_ & _ & -> & _). simpl. lia.
    + destruct H as (_ & pressed & _ & -> & _). destruct pressed; [simpl; lia|exact Hlen].
  - intros Hch Hcands Hfound.
    assert (Hdraw : matches_at_draw i w = take 5 (found i w)).
    { destruct Hcases as [[Hm _]|[_ Hfalse]]; [exact Hm|].
      rewrite Hch in Hfalse.
      replace (0 <? len (i_candidates i)) with true in Hfalse
        by (destruct (i_candidates i); [congruence|reflexivity]).
      replace (0 <? len (found i w)) with true in Hfalse
        by (destruct (found i w); [congruence|reflexivity]).
      discriminate. }
    rewrite Hdraw in H.
    destruct (take 5 (found i w)) as [|m ms] eqn:Ht.
    + destruct H as (_ & Hkey & Hst & _). split; [intros _; exact Hst|intros _; exact Hst].
    + destruct H as (_ & pressed & Hkey & Hst & _). split.
      * intros Hin. apply Hkey in Hin. subst pressed. exact Hst.
      * intros Hno. destruct pressed; [|exact Hst]. destruct Hno. apply Hkey. reflexivity.
Qed.


(** X17. The item width is pushed first and popped last, exactly when the width
    given is not zero, and nowhere in between. *)
Theorem InputTextWidget_Build_item_width (width : float32) (i : InputTextWidget) (w : World) :
  i_value i <> 0 ->
  (forall name, Context_state w !! i_label i <> Some (State_other name)) ->
  exists w' mid,
    InputTextWidget_Build (InputTextWidget_Size width i) w =
    Ok tt w' ((if f32_eqb width (float32_of_int 0) then [] else [imgui.PushItemWidth width])
              ++ mid
              ++ (if f32_eqb width (float32_of_int 0) then [] else [imgui.PopItemWidth])) /\
    item_width_pushes mid = 0 /\ item_width_pops mid = 0.
Proof.
  intros Hv Hty.
  destruct (InputTextWidget_Build_shape (InputTextWidget_Size width i) w Hv Hty)
    as (w' & overlay & HB & _ & _ & _ & Hov).
  cbn [InputTextWidget_Size i_width i_label i_hint i_value i_flags] in HB.
  eexists w', (_ :: overlay). split.
  - rewrite HB. destruct (f32_eqb width (float32_of_int 0)); reflexivity.
  - unfold item_width_pushes, item_width_pops. rewrite !tally_cons.
    destruct Hov as [[_ ->]|(_ & rmin & rmax & pressed & ->)].
    + split; reflexivity.
    + rewrite !tally_app.
      rewrite !(tally_map_const _ (fun m => imgui.Text (tStr (fuzzy.Str m))) 0)
        by reflexivity.
      split; simpl; lia.
Qed.

(** X18. When matches are stored at the time the list is drawn, the build asks
    for the input box's rectangle, places the next window at the
    rectangle's left and bottom, and draws inside one tooltip one text per
    stored match, in their order, before it asks for the Enter key. *)
Theorem InputTextWidget_Build_overlay (i : InputTextWidget) (w : World) :
  i_value i <> 0 ->
  (forall name, Context_state w !! i_label i <> Some (State_other name)) ->
  matches_at_draw i w <> [] ->
  exists w' t1 t2 rmin rmax pressed,
    InputTextWidget_Build i w =
    Ok tt w'
      (t1 ++ [imgui.GetItemRectMin rmin; imgui.GetItemRectMax rmax;
              imgui.SetNextWindowPos (imgui.X rmin) (imgui.Y rmax); imgui.BeginTooltip]
          ++ map (fun m => imgui.Text (tStr (fuzzy.Str m))) (matches_at_draw i w)
          ++ [imgui.EndTooltip; imgui.IsKeyPressed KeyEnter pressed] ++ t2) /\
    ~ In imgui.BeginTooltip t1 /\ ~ In imgui.BeginTooltip t2.
Proof.
  intros Hv Hty Hdraw.
  destruct (InputTextWidget_Build_shape i w Hv Hty)
    as (w' & overlay & HB & _ & _ & _ & Hov).
  destruct Hov as [[Hnil _]|(_ & rmin & rmax & pressed & ->)]; [contradiction|].
  exists w',
    ((if negb (f32_eqb (i_width i) (float32_of_int 0))
      then [imgui.PushItemWidth (i_width i)] else [])
     ++ [imgui.InputTextWithHint (i_label i) (i_hint i)
           (tStrPtr (strings w (i_value i))) (i_flags i)
           (fst (input_answer i w)) (snd (input_answer i w))]),
    (if negb (f32_eqb (i_width i) (float32_of_int 0)) then [imgui.PopItemWidth] else []),
    rmin, rmax, pressed.
  split.
  - rewrite HB. rewrite <- !app_assoc. reflexivity.
  - split.
    + rewrite in_app_iff.
      destruct (negb (f32_eqb (i_width i) (float32_of_int 0))); simpl;
        intuition congruence.
    + destruct (negb (f32_eqb (i_width i) (float32_of_int 0))); simpl;
        intuition congruence.
Qed.

(** X19. Without candidates an input box with no stored matches is a plain input
    box: its build makes the one [InputTextWithHint] call (inside the item
    width, if one is set) and stores nothing. *)
Theorem InputTextWidget_Build_plain (i : InputTextWidget) (w : World) :
  i_value i <> 0 ->
  (forall name, Context_state w !! i_label i <> Some (State_other name)) ->
  stored_matches (i_label i) w = [] ->
  exists w' changed text',
    InputTextWidget_Build (InputTextWidget_AutoComplete [] i) w =
    Ok tt w'
      ((if negb (f32_eqb (i_width i) (float32_of_int 0))
        then [imgui.PushItemWidth (i_width i)] else [])
       ++ imgui.InputTextWithHint (i_label i) (i_hint i)
            (tStrPtr (strings w (i_value i))) (i_flags i) changed text'
       :: (if negb (f32_eqb (i_width i) (float32_of_int 0))
           then [imgui.PopItemWidth] else [])) /\
    stored_matches (i_label i) w' = [].
Proof.
  intros Hv Hty Hold. set (i' := InputTextWidget_AutoComplete [] i).
  destruct (InputTextWidget_Build_shape i' w Hv Hty)
    as (w' & overlay & HB & _ & _ & _ & Hov).
  destruct (InputTextWidget_Build_outcome i' w Hv Hty) as (w'' & t & HB' & H).
  rewrite HB in HB'. injection HB' as <- _.
  assert (Hm : matches_at_draw i' w = []).
  { unfold matches_at_draw. cbn [i' InputTextWidget_AutoComplete i_candidates i_label].
    change (0 <? len (@nil string)) with false. rewrite andb_false_r. exact Hold. }
  rewrite Hm in H, Hov.
  destruct Hov as [[_ ->]|[Hne _]]; [|congruence].
  destruct H as (_ & _ & Hst & _).
  eexists w', _, _. split; [exact HB|exact Hst].
Qed.

End Properties.

(** * The theorems at work on the concrete backend *)











Lemma InputTextWidget_Build_state_recovery_witness :
  (Context_state (demo.world demo.window demo.clash (fun _ => ""%string))
     !! i_label demo.input = Some (State_other "comboState") /\
   InputTextWidget_Build demo.input (demo.world demo.window demo.clash (fun _ => ""%string)) =
   Panic "giu: (*InputTextWidget).Build: wrong state type recovered.") /\
  (Context_state demo.start !! i_label demo.input = None /\
   InputTextWidget_Build demo.input demo.start =
   InputTextWidget_Build demo.input
     (set_Context_state
        (<[i_label demo.input := State_inputTextState (mk_inputTextState [])]>
           (Context_state demo.start))
        demo.start) /\
   (i_value demo.input <> 0 ->
    exists w' t, InputTextWidget_Build demo.input demo.start = Ok tt w' t) /\
   (forall w' t, InputTextWidget_Build demo.input demo.start = Ok tt w' t ->
      exists s, Context_state w' !! i_label demo.input = Some (State_inputTextState s))).
Proof.
  assert (H1 : Context_state (demo.world demo.window demo.clash (fun _ => ""%string))
                 !! i_label demo.input = Some (State_other "comboState"))
    by (vm_compute; reflexivity).
  assert (H2 : Context_state demo.start !! i_label demo.input = None)
    by (vm_compute; reflexivity).
  split.
  - split; [exact H1|].
    exact (proj1 (InputTextWidget_Build_state_recovery demo.input
                    (demo.world demo.window demo.clash (fun _ => ""%string)))
             "comboState"%string H1).
  - split; [exact H2|].
    exact (proj2 (InputTextWidget_Build_state_recovery demo.input demo.start) H2).
Defined.

Lemma InputTextWidget_Build_confirm_witness :
  (i_value demo.input <> 0 /\
   forall name,
     Context_state (demo.world (demo.typing None [257]) demo.stale (fun _ => "a"%string))
       !! i_label demo.input <> Some (State_other name)) /\
  exists w' t,
    InputTextWidget_Build demo.input
      (demo.world (demo.typing None [257]) demo.stale (fun _ => "a"%string)) = Ok tt w' t /\
    match matches_at_draw demo.input
            (demo.world (demo.typing None [257]) demo.stale (fun _ => "a"%string)) with
    | m :: ms =>
        exists pressed : bool,
          (forall b, In (imgui.IsKeyPressed (@KeyEnter demo.externals) b) t <-> b = pressed) /\
          if pressed
          then strings w' (i_value demo.input) = fuzzy.Str m /\
               stored_matches (i_label demo.input) w' = []
          else strings w' =
               strings_after_input demo.input
                 (demo.world (demo.typing None [257]) demo.stale (fun _ => "a"%string)) /\
               stored_matches (i_label demo.input) w' = m :: ms
    | [] =>
        (forall b, ~ In (imgui.IsKeyPressed (@KeyEnter demo.externals) b) t) /\
        strings w' =
        strings_after_input demo.input
          (demo.world (demo.typing None [257]) demo.stale (fun _ => "a"%string)) /\
        stored_matches (i_label demo.input) w' = []
    end.
Proof.
  assert (H1 : i_value demo.input <> 0) by discriminate.
  assert (H2 : forall name,
             Context_state (demo.world (demo.typing None [257]) demo.stale
                              (fun _ => "a"%string))
               !! i_label demo.input <> Some (State_other name))
    by (intros name; vm_compute; discriminate).
  split; [exact (conj H1 H2)|].
  exact (InputTextWidget_Build_confirm demo.input
           (demo.world (demo.typing None [257]) demo.stale (fun _ => "a"%string)) H1 H2).
Defined.

Lemma InputTextWidget_Build_no_match_keeps_matches_witness :
  (i_value demo.input <> 0 /\
   (forall name,
      Context_state (demo.world (demo.typing (Some "zz"%string) []) demo.stale
                       (fun _ => "a"%string))
        !! i_label demo.input <> Some (State_other name)) /\
   fst (input_answer demo.input
          (demo.world (demo.typing (Some "zz"%string) []) demo.stale (fun _ => "a"%string)))
   = true /\
   i_candidates demo.input <> [] /\
   found demo.input
     (demo.world (demo.typing (Some "zz"%string) []) demo.stale (fun _ => "a"%string)) = []) /\
  exists w' t,
    InputTextWidget_Build demo.input
      (demo.world (demo.typing (Some "zz"%string) []) demo.stale (fun _ => "a"%string))
    = Ok tt w' t /\
    (stored_matches (i_label demo.input)
       (demo.world (demo.typing (Some "zz"%string) []) demo.stale (fun _ => "a"%string))
     <> [] -> In imgui.BeginTooltip t) /\
    (~ In (imgui.IsKeyPressed (@KeyEnter demo.externals) true) t ->
     stored_matches (i_label demo.input) w' =
     stored_matches (i_label demo.input)
       (demo.world (demo.typing (Some "zz"%string) []) demo.stale (fun _ => "a"%string))) /\
    (In (imgui.IsKeyPressed (@KeyEnter demo.externals) true) t ->
     stored_matches (i_label demo.input) w' = []).
Proof.
  assert (H1 : i_value demo.input <> 0) by discriminate.
  assert (H2 : forall name,
             Context_state (demo.world (demo.typing (Some "zz"%string) []) demo.stale
                              (fun _ => "a"%string))
               !! i_label demo.input <> Some (State_other name))
    by (intros name; vm_compute; discriminate).
  assert (H3 : fst (input_answer demo.input
                      (demo.world (demo.typing (Some "zz"%string) []) demo.stale
                         (fun _ => "a"%string))) = true)
    by (vm_compute; reflexivity).
  assert (H4 : i_candidates demo.input <> []) by discriminate.
  assert (H5 : found demo.input
                 (demo.world (demo.typing (Some "zz"%string) []) demo.stale
                    (fun _ => "a"%string)) = [])
    by (vm_compute; reflexivity).
  split; [exact (conj H1 (conj H2 (conj H3 (conj H4 H5))))|].
  exact (InputTextWidget_Build_no_match_keeps_matches demo.input
           (demo.world (demo.typing (Some "zz"%string) []) demo.stale (fun _ => "a"%string))
           H1 H2 H3 H4 H5).
Defined.

(** C2, as stated, fails: the store holds the match "abd" from an earlier
    frame, the user types "zz", the search over the three candidates finds
    nothing, and after the build the store still holds "abd", from which the
    list has been drawn. *)
Lemma InputTextWidget_Build_stale_matches_counterexample :
  fst (input_answer demo.input
         (demo.world (demo.typing (Some "zz"%string) []) demo.stale (fun _ => "a"%string)))
  = true /\
  i_candidates demo.input = ["abc"; "xyz"; "abd"]%string /\
  found demo.input
    (demo.world (demo.typing (Some "zz"%string) []) demo.stale (fun _ => "a"%string)) = [] /\
  match InputTextWidget_Build demo.input
          (demo.world (demo.typing (Some "zz"%string) []) demo.stale (fun _ => "a"%string))
  with
  | Ok _ w' t =>
      stored_matches (i_label demo.input) w' = [demo.abd] /\
      In imgui.BeginTooltip t /\ In (imgui.Text "abd") t
  | Panic _ => False
  end.
Proof.
  split; [vm_compute; reflexivity|].
  split; [reflexivity|].
  split; [vm_compute; reflexivity|].
  vm_compute. split; [reflexivity|]. tauto.
Qed.

(** * The further properties at work on the concrete backend *)








Lemma AlignmentSetter_Build_bypassed_witness :
  (((forall item, In item (Layout_items (a_layout (AlignmentSetter_To (Some [None; Some
      (AlignmentSetter_Widget (demo.align 1))]) (demo.align 7)))) ->
     item = None \/ exists x, item = Some x /\ bypassed x = true))) /\
  (AlignmentSetter_Build (AlignmentSetter_To (Some [None; Some (AlignmentSetter_Widget
      (demo.align 1))]) (demo.align 7)) demo.start = Layout_Build (a_layout (AlignmentSetter_To
      (Some [None; Some (AlignmentSetter_Widget (demo.align 1))]) (demo.align 7))) demo.start).
Proof.
  assert (H1 : (forall item, In item (Layout_items (a_layout (AlignmentSetter_To (Some [None;
      Some (AlignmentSetter_Widget (demo.align 1))]) (demo.align 7)))) ->
     item = None \/ exists x, item = Some x /\ bypassed x = true))
    by (intros item Hin; simpl in Hin; destruct Hin as [<-|[<-|[]]]; [left; reflexivity|right;
        eexists; split; reflexivity]).
  split; [exact H1|].
  exact (AlignmentSetter_Build_bypassed (AlignmentSetter_To (Some [None; Some
      (AlignmentSetter_Widget (demo.align 1))]) (demo.align 7)) demo.start
           H1).
Defined.

Lemma AlignmentSetter_Build_nothing_to_align_witness :
  (((forall item, In item (Layout_items (a_layout (AlignmentSetter_To (Some [None; None])
      (demo.align 7)))) -> item = None))) /\
  (AlignmentSetter_Build (AlignmentSetter_To (Some [None; None]) (demo.align 7)) demo.start = Ok
      tt demo.start []).
Proof.
  assert (H1 : (forall item, In item (Layout_items (a_layout (AlignmentSetter_To (Some [None;
      None]) (demo.align 7)))) -> item = None))
    by (intros item Hin; simpl in Hin; destruct Hin as [<-|[<-|[]]]; reflexivity).
  split; [exact H1|].
  exact (AlignmentSetter_Build_nothing_to_align (AlignmentSetter_To (Some [None; None])
      (demo.align 7)) demo.start
           H1).
Defined.




Lemma InputTextWidget_Build_keeps_five_witness :
  ((i_value demo.input <> 0) /\
   ((forall name, Context_state (demo.world (demo.typing (Some "ab"%string) []) ∅ (fun _ =>
       "a"%string)) !! i_label demo.input <> Some (State_other name)))) /\
  (exists w' t,
    InputTextWidget_Build demo.input (demo.world (demo.typing (Some "ab"%string) []) ∅ (fun _ =>
        "a"%string)) = Ok tt w' t /\
    ((length (stored_matches (i_label demo.input) (demo.world (demo.typing (Some "ab"%string) [])
        ∅ (fun _ => "a"%string))) <= 5)%nat ->
     (length (stored_matches (i_label demo.input) w') <= 5)%nat) /\
    (fst (input_answer demo.input (demo.world (demo.typing (Some "ab"%string) []) ∅ (fun _ =>
        "a"%string))) = true -> i_candidates demo.input <> [] -> found demo.input (demo.world
        (demo.typing (Some "ab"%string) []) ∅ (fun _ => "a"%string)) <> [] ->
     (In (imgui.IsKeyPressed (@KeyEnter demo.externals) true) t -> stored_matches (i_label
         demo.input) w' = []) /\
     (~ In (imgui.IsKeyPressed (@KeyEnter demo.externals) true) t ->
      stored_matches (i_label demo.input) w' = take 5 (found demo.input (demo.world (demo.typing
          (Some "ab"%string) []) ∅ (fun _ => "a"%string)))))).
Proof.
  assert (H1 : i_value demo.input <> 0)
    by (discriminate).
  assert (H2 : (forall name, Context_state (demo.world (demo.typing (Some "ab"%string) []) ∅ (fun
      _ => "a"%string)) !! i_label demo.input <> Some (State_other name)))
    by (intros name; vm_compute; discriminate).
  split; [exact (conj H1 H2)|].
  exact (InputTextWidget_Build_keeps_five demo.input (demo.world (demo.typing (Some "ab"%string)
      []) ∅ (fun _ => "a"%string))
           H1 H2).
Defined.


Lemma InputTextWidget_Build_item_width_witness :
  ((i_value demo.input <> 0) /\
   ((forall name, Context_state (demo.world (demo.typing (Some "ab"%string) []) ∅ (fun _ =>
       "a"%string)) !! i_label demo.input <> Some (State_other name)))) /\
  (exists w' mid,
    InputTextWidget_Build (InputTextWidget_Size (float32_of_int 120) demo.input) (demo.world
        (demo.typing (Some "ab"%string) []) ∅ (fun _ => "a"%string)) =
    Ok tt w' ((if f32_eqb (float32_of_int 120) (float32_of_int 0) then [] else
        [imgui.PushItemWidth (float32_of_int 120)])
              ++ mid
              ++ (if f32_eqb (float32_of_int 120) (float32_of_int 0) then [] else
                  [imgui.PopItemWidth])) /\
    item_width_pushes mid = 0 /\ item_width_pops mid = 0).
Proof.
  assert (H1 : i_value demo.input <> 0)
    by (discriminate).
  assert (H2 : (forall name, Context_state (demo.world (demo.typing (Some "ab"%string) []) ∅ (fun
      _ => "a"%string)) !! i_label demo.input <> Some (State_other name)))
    by (intros name; vm_compute; discriminate).
  split; [exact (conj H1 H2)|].
  exact (InputTextWidget_Build_item_width (float32_of_int 120) demo.input (demo.world
      (demo.typing (Some "ab"%string) []) ∅ (fun _ => "a"%string))
           H1 H2).
Defined.

Lemma InputTextWidget_Build_overlay_witness :
  ((i_value demo.input <> 0) /\
   ((forall name, Context_state (demo.world (demo.typing (Some "ab"%string) []) ∅ (fun _ =>
       "a"%string)) !! i_label demo.input <> Some (State_other name))) /\
   (matches_at_draw demo.input (demo.world (demo.typing (Some "ab"%string) []) ∅ (fun _ =>
       "a"%string)) <> [])) /\
  (exists w' t1 t2 rmin rmax pressed,
    InputTextWidget_Build demo.input (demo.world (demo.typing (Some "ab"%string) []) ∅ (fun _ =>
        "a"%string)) =
    Ok tt w'
      (t1 ++ [imgui.GetItemRectMin rmin; imgui.GetItemRectMax rmax;
              imgui.SetNextWindowPos (imgui.X rmin) (imgui.Y rmax); imgui.BeginTooltip]
          ++ map (fun m => imgui.Text (@tStr demo.externals (fuzzy.Str m))) (matches_at_draw
              demo.input (demo.world (demo.typing (Some "ab"%string) []) ∅ (fun _ => "a"%string)))
          ++ [imgui.EndTooltip; imgui.IsKeyPressed (@KeyEnter demo.externals) pressed] ++ t2) /\
    ~ In imgui.BeginTooltip t1 /\ ~ In imgui.BeginTooltip t2).
Proof.
  assert (H1 : i_value demo.input <> 0)
    by (discriminate).
  assert (H2 : (forall name, Context_state (demo.world (demo.typing (Some "ab"%string) []) ∅ (fun
      _ => "a"%string)) !! i_label demo.input <> Some (State_other name)))
    by (intros name; vm_compute; discriminate).
  assert (H3 : matches_at_draw demo.input (demo.world (demo.typing (Some "ab"%string) []) ∅ (fun
      _ => "a"%string)) <> [])
    by (vm_compute; discriminate).
  split; [exact (conj H1 (conj H2 H3))|].
  exact (InputTextWidget_Build_overlay demo.input (demo.world (demo.typing (Some "ab"%string) [])
      ∅ (fun _ => "a"%string))
           H1 H2 H3).
Defined.

Lemma InputTextWidget_Build_plain_witness :
  ((i_value demo.input <> 0) /\
   ((forall name, Context_state demo.start !! i_label demo.input <> Some (State_other name))) /\
   (stored_matches (i_label demo.input) demo.start = [])) /\
  (exists w' changed text',
    InputTextWidget_Build (InputTextWidget_AutoComplete [] demo.input) demo.start =
    Ok tt w'
      ((if negb (f32_eqb (i_width demo.input) (float32_of_int 0))
        then [imgui.PushItemWidth (i_width demo.input)] else [])
       ++ imgui.InputTextWithHint (i_label demo.input) (i_hint demo.input)
            (@tStrPtr demo.externals (strings demo.start (i_value demo.input))) (i_flags
                demo.input) changed text'
       :: (if negb (f32_eqb (i_width demo.input) (float32_of_int 0))
           then [imgui.PopItemWidth] else [])) /\
    stored_matches (i_label demo.input) w' = []).
Proof.
  assert (H1 : i_value demo.input <> 0)
    by (discriminate).
  assert (H2 : (forall name, Context_state demo.start !! i_label demo.input <> Some (State_other
      name)))
    by (intros name; vm_compute; discriminate).
  assert (H3 : stored_matches (i_label demo.input) demo.start = [])
    by (vm_compute; reflexivity).
  split; [exact (conj H1 (conj H2 H3))|].
  exact (InputTextWidget_Build_plain demo.input demo.start
           H1 H2 H3).
Defined.
